(** * The record writer of [src/protocols/write/src/write.py]

    A shallow embedding of the Python module [write.py]: the classes
    [Metadata] and [RecordBuilder] and the functions [write],
    [write_crypto] and [write_stream], together with the results that settle
    what the specification says about them.

    Conventions of the embedding.
    - A Python object is a record whose fields are the instance attributes
      the class annotates; an attribute that has not been assigned yet is
      [None], and reading it raises [AttributeError].
    - A method is a function from the state of [self] to an outcome (a
      raised exception or the returned value) paired with the state of
      [self] after the call: mutations made before a [raise] are kept.
    - [str] values are Rocq strings, one character per code point (code
      points below 256); [bytes] values are lists of bytes. *)

From Stdlib Require Import ZArith List DecimalString.
From Stdlib.Strings Require Import Ascii String Byte.
From stdpp Require Import gmap strings list fin_maps.

Open Scope string_scope.
Open Scope Z_scope.

(** ** The digest of [hashlib.md5] (RFC 1321) *)

Module MD5.

Definition w32 (x : Z) : Z := x mod 2 ^ 32.

Definition add32 (x y : Z) : Z := w32 (x + y).

Definition not32 (x : Z) : Z := Z.lxor x 4294967295.

Definition rotl32 (x n : Z) : Z :=
  w32 (Z.lor (Z.shiftl x n) (Z.shiftr x (32 - n))).

Definition F (x y z : Z) : Z := Z.lor (Z.land x y) (Z.land (not32 x) z).
Definition G (x y z : Z) : Z := Z.lor (Z.land x z) (Z.land y (not32 z)).
Definition H (x y z : Z) : Z := Z.lxor x (Z.lxor y z).
Definition I (x y z : Z) : Z := Z.lxor y (Z.lor x (not32 z)).

(** [T i] is the integer part of [2^32 * abs (sin (i + 1))]. *)
Definition T : list Z :=
  [ 3614090360; 3905402710;  606105819; 3250441966;
    4118548399; 1200080426; 2821735955; 4249261313;
    1770035416; 2336552879; 4294925233; 2304563134;
    1804603682; 4254626195; 2792965006; 1236535329;
    4129170786; 3225465664;  643717713; 3921069994;
    3593408605;   38016083; 3634488961; 3889429448;
     568446438; 3275163606; 4107603335; 1163531501;
    2850285829; 4243563512; 1735328473; 2368359562;
    4294588738; 2272392833; 1839030562; 4259657740;
    2763975236; 1272893353; 4139469664; 3200236656;
     681279174; 3936430074; 3572445317;   76029189;
    3654602809; 3873151461;  530742520; 3299628645;
    4096336452; 1126891415; 2878612391; 4237533241;
    1700485571; 2399980690; 4293915773; 2240044497;
    1873313359; 4264355552; 2734768916; 1309151649;
    4149444226; 3174756917;  718787259; 3951481745 ]%Z.

Definition S : list Z :=
  [ 7; 12; 17; 22; 7; 12; 17; 22; 7; 12; 17; 22; 7; 12; 17; 22;
    5;  9; 14; 20; 5;  9; 14; 20; 5;  9; 14; 20; 5;  9; 14; 20;
    4; 11; 16; 23; 4; 11; 16; 23; 4; 11; 16; 23; 4; 11; 16; 23;
    6; 10; 15; 21; 6; 10; 15; 21; 6; 10; 15; 21; 6; 10; 15; 21 ]%Z.

Record regs : Type := Regs { ra : Z; rb : Z; rc : Z; rd : Z }.

Definition init_regs : regs :=
  Regs 1732584193 4023233417 2562383102 271733878.

(** Little-endian word made of four bytes. *)
Definition word_of (bs : list Z) : Z :=
  fold_right (fun b acc => b + 256 * acc) 0 (firstn 4 bs).

Fixpoint words_of (n : nat) (bs : list Z) : list Z :=
  match n with
  | O => []
  | Datatypes.S n' => word_of bs :: words_of n' (skipn 4 bs)
  end.

Definition step (m : list Z) (r : regs) (i : nat) : regs :=
  let '(Regs a b c d) := r in
  let iz := Z.of_nat i in
  let '(f, g) :=
    if iz <? 16 then (F b c d, iz)
    else if iz <? 32 then (G b c d, (5 * iz + 1) mod 16)
    else if iz <? 48 then (H b c d, (3 * iz + 5) mod 16)
    else (I b c d, (7 * iz) mod 16) in
  let x := add32 (add32 (add32 a f) (nth i T 0)) (nth (Z.to_nat g) m 0) in
  Regs d (add32 b (rotl32 x (nth i S 0))) b c.

Definition compress (r : regs) (block : list Z) : regs :=
  let m := words_of 16 block in
  let '(Regs a b c d) := fold_left (step m) (seq 0 64) r in
  Regs (add32 (ra r) a) (add32 (rb r) b) (add32 (rc r) c) (add32 (rd r) d).

Fixpoint le_bytes (n : nat) (x : Z) : list Z :=
  match n with
  | O => []
  | Datatypes.S n' => x mod 256 :: le_bytes n' (x / 256)
  end.

Definition pad (msg : list Z) : list Z :=
  let len := Z.of_nat (length msg) in
  let zeros := Z.to_nat ((55 - len) mod 64) in
  msg ++ 128 :: repeat 0 zeros ++ le_bytes 8 ((8 * len) mod 2 ^ 64).

Fixpoint run (n : nat) (r : regs) (bs : list Z) : regs :=
  match n with
  | O => r
  | Datatypes.S n' => run n' (compress r (firstn 64 bs)) (skipn 64 bs)
  end.

Definition digest (msg : list byte) : list Z :=
  let p := pad (map (fun b => Z.of_N (Byte.to_N b)) msg) in
  let '(Regs a b c d) := run (length p / 64)%nat init_regs p in
  le_bytes 4 a ++ le_bytes 4 b ++ le_bytes 4 c ++ le_bytes 4 d.

Definition hex_digit (x : Z) : ascii :=
  nth (Z.to_nat x)
      (list_ascii_of_string "0123456789abcdef") "0"%char.

Fixpoint hex (bs : list Z) : string :=
  match bs with
  | [] => EmptyString
  | b :: bs' => String (hex_digit (b / 16)) (String (hex_digit (b mod 16)) (hex bs'))
  end.

(** The lower-case hexadecimal text of the digest of [msg]. *)
Definition hexdigest_of (msg : list byte) : string := hex (digest msg).

(** A hash object: what [md5()] returns. It is determined by the bytes fed
    to it so far, in the order they were fed. *)
Record t : Type := Hash { fed : list byte }.

(** [md5()] *)
Definition new : t := Hash [].

(** [h.update(data)] *)
Definition update (data : list byte) (h : t) : t := Hash (fed h ++ data).

(** [h.hexdigest()] *)
Definition hexdigest (h : t) : string := hexdigest_of (fed h).

End MD5.


(** ** Python values, exceptions and the calling convention *)

(** [Hashkey = NewType('Hashkey', str)] *)
Definition Hashkey : Type := string.

(** A float, as [time.time()] returns one. The program never computes with
    it: it only formats it in an f-string, so the model keeps the text that
    formatting gives. *)
Record pyfloat : Type := PyFloat { float_str : string }.

(** [f'{n}'] for an [int]. *)
Definition int_str (n : Z) : string := NilZero.string_of_int (Z.to_int n).

(** The line feed that ends a rendered record. *)
Definition newline : string := String (ascii_of_nat 10) EmptyString.

(** [s.encode('utf-8')] on code points below 256: one byte below 128, two
    bytes from 128 on. *)
Definition utf8_char (c : ascii) : list byte :=
  let n := N_of_ascii c in
  if (n <? 128)%N then [byte_of_ascii c]
  else
    match Byte.of_N (192 + n / 64), Byte.of_N (128 + n mod 64) with
    | Some hi, Some lo => [hi; lo]
    | _, _ => []
    end.

Fixpoint encode_utf8 (s : string) : list byte :=
  match s with
  | EmptyString => []
  | String c s' => utf8_char c ++ encode_utf8 s'
  end.

(** The exceptions the module can raise. [AttributeError cls attr] is
    "'cls' object has no attribute 'attr'"; [Exception_ msg] is the plain
    [Exception(msg)] the builder raises for a call in the wrong state. *)
Inductive PyExc : Type :=
| AttributeError (cls attr : string)
| UnboundLocalError (var : string)
| TypeError (msg : string)
| ValueError (msg : string)
| Exception_ (msg : string).

(** What a call does to the state [S] it runs on: it raises or returns, and
    leaves a state behind in both cases. *)
Definition Py (S A : Type) : Type := S -> (PyExc + A) * S.

Definition ret {S A : Type} (a : A) : Py S A := fun s => (inr a, s).

Definition raise {S A : Type} (e : PyExc) : Py S A := fun s => (inl e, s).

Definition bind {S A B : Type} (m : Py S A) (k : A -> Py S B) : Py S B :=
  fun s =>
    match m s with
    | (inl e, s') => (inl e, s')
    | (inr a, s') => k a s'
    end.

Declare Scope py_scope.
Delimit Scope py_scope with py.
Notation "x <- m ;; k" := (bind m (fun x => k))
  (at level 100, m at next level, right associativity) : py_scope.
Notation "m ;; k" := (bind m (fun _ => k))
  (at level 100, right associativity) : py_scope.
Open Scope py_scope.

(** [self.attr] read: the attribute is in the instance or the read raises. *)
Definition getattr {S A : Type} (cls attr : string) (proj : S -> option A)
  : Py S A :=
  fun s =>
    match proj s with
    | Some v => (inr v, s)
    | None => (inl (AttributeError cls attr), s)
    end.

(** [self.attr = v] and other in-place changes of [self]. *)
Definition modify {S : Type} (f : S -> S) : Py S unit := fun s => (inr tt, f s).

(** [self.attr.method(...)]: the method runs on the object the attribute
    refers to, and what it does to that object is seen through [self]. *)
Definition on_attr {S O A : Type} (cls attr : string)
    (proj : S -> option O) (store : O -> S -> S) (m : Py O A) : Py S A :=
  fun s =>
    match proj s with
    | Some o => let (r, o') := m o in (r, store o' s)
    | None => (inl (AttributeError cls attr), s)
    end.

(** Reading a local variable: a local that no assignment has bound yet
    raises [UnboundLocalError]. *)
Definition load_fast {S A : Type} (var : string) (slot : option A) : Py S A :=
  match slot with
  | Some v => ret v
  | None => raise (UnboundLocalError var)
  end.

(** What [__init__] returned: [None], or an object of the named type. *)
Inductive InitResult : Type :=
| ReturnsNone
| ReturnsObject (tyname : string).

(** [cls(args)]: [object.__new__] makes an instance with no attribute,
    [__init__] runs on it, and a result other than [None] is a [TypeError]. *)
Definition type_call {T : Type} (new : T) (init : Py T InitResult) : PyExc + T :=
  match init new with
  | (inl e, _) => inl e
  | (inr ReturnsNone, self) => inr self
  | (inr (ReturnsObject ty), _) =>
      inl (TypeError ("__init__() should return None, not '" +:+ ty +:+ "'"))
  end.

(** ** [class Metadata] *)

Module Metadata.

(** The instance attributes. The class body only annotates them, so none
    exists until it is assigned. *)
Record t : Type := Build {
  key : option Hashkey;
  feature : option Hashkey;
  author : option Hashkey;
  created_at : option pyfloat;
  size : option Z
}.

(** [object.__new__(Metadata)] *)
Definition new : t := Build None None None None None.

Definition set_key (v : Hashkey) (self : t) : t :=
  Build (Some v) (feature self) (author self) (created_at self) (size self).

Definition set_feature (v : Hashkey) (self : t) : t :=
  Build (key self) (Some v) (author self) (created_at self) (size self).

Definition set_author (v : Hashkey) (self : t) : t :=
  Build (key self) (feature self) (Some v) (created_at self) (size self).

Definition set_created_at (v : pyfloat) (self : t) : t :=
  Build (key self) (feature self) (author self) (Some v) (size self).

(** [Metadata.__init__]; [now] is what [time.time()] returns. *)
Definition __init__ (now : pyfloat) : Py t InitResult :=
  modify (set_created_at now) ;;
  ret (ReturnsObject "Metadata").

(** [Metadata()] *)
Definition call (now : pyfloat) : PyExc + t := type_call new (__init__ now).

(** [Metadata.get_info] *)
Definition get_info : Py t string :=
  f <- getattr "Metadata" "feature" feature ;;
  a <- getattr "Metadata" "author" author ;;
  c <- getattr "Metadata" "created_at" created_at ;;
  n <- getattr "Metadata" "size" size ;;
  ret ("feature:" +:+ f +:+ ";author:" +:+ a +:+ ";create_at:" +:+ float_str c
       +:+ ";size:" +:+ int_str n +:+ ";").

(** [Metadata.__str__] *)
Definition __str__ : Py t string :=
  k <- getattr "Metadata" "key" key ;;
  info <- get_info ;;
  ret ("key:" +:+ k +:+ ";" +:+ info).

End Metadata.

(** ** [class RecordBuilder(RecordBase)] *)

Module RecordBuilder.

(** The instance attributes the methods use. [RecordBase] annotates [body],
    [key_builder] and [__complete] (and a [head] that nothing uses) without
    giving any a value; [meta] is only ever named in the methods. Inside
    the class [__complete] is the attribute [_RecordBuilder__complete]. *)
Record t : Type := Build {
  meta : option Metadata.t;
  body : option string;
  key_builder : option MD5.t;
  __complete : option bool
}.

(** [object.__new__(RecordBuilder)] *)
Definition new : t := Build None None None None.

Definition set_meta (v : Metadata.t) (self : t) : t :=
  Build (Some v) (body self) (key_builder self) (__complete self).

Definition set_body (v : string) (self : t) : t :=
  Build (meta self) (Some v) (key_builder self) (__complete self).

Definition set_key_builder (v : MD5.t) (self : t) : t :=
  Build (meta self) (body self) (Some v) (__complete self).

Definition set___complete (v : bool) (self : t) : t :=
  Build (meta self) (body self) (key_builder self) (Some v).

Definition cls : string := "RecordBuilder".

Definition get___complete : Py t bool :=
  getattr cls "_RecordBuilder__complete" __complete.

(** [RecordBuilder.__init__] *)
Definition __init__ (now : pyfloat) (feature : Hashkey) : Py t InitResult :=
  on_attr cls "meta" meta set_meta (modify (Metadata.set_feature feature)) ;;
  m <- (fun self => (Metadata.call now, self)) ;;
  modify (set_meta m) ;;
  modify (set_key_builder MD5.new) ;;
  modify (set___complete false) ;;
  ret (ReturnsObject "method").

(** [RecordBuilder(feature)] *)
Definition call (now : pyfloat) (feature : Hashkey) : PyExc + t :=
  type_call new (__init__ now feature).

(** [RecordBuilder.__add_author]; returning [self] is returning [tt], the
    object being the state the call leaves. *)
Definition __add_author (author : Hashkey) : Py t unit :=
  c <- get___complete ;;
  if c : bool then raise (Exception_ "already complete")
  else
    on_attr cls "meta" meta set_meta (modify (Metadata.set_author author)) ;;
    ret tt.

(** [RecordBuilder.append_body]. The local [encode] has no binding when
    line 106 reads it. *)
Definition append_body (content : string) : Py t unit :=
  c <- get___complete ;;
  if c : bool then raise (Exception_ "already complete")
  else
    b <- getattr cls "body" body ;;
    modify (set_body (b +:+ content)) ;;
    let encode : option (list byte) := None in
    e <- load_fast "encode" encode ;;
    let encode := (e ++ encode_utf8 content)%list in
    on_attr cls "key_builder" key_builder set_key_builder
      (modify (MD5.update encode)) ;;
    ret tt.

(** [RecordBuilder.complete] *)
Definition complete : Py t unit :=
  c <- get___complete ;;
  if c : bool then raise (Exception_ "already complete")
  else
    k <- on_attr cls "key_builder" key_builder set_key_builder
           (fun h => (inr (MD5.hexdigest h), h)) ;;
    on_attr cls "meta" meta set_meta (modify (Metadata.set_key k)) ;;
    modify (set___complete true) ;;
    ret tt.

(** [RecordBuilder.result] *)
Definition result : Py t string :=
  c <- get___complete ;;
  if negb c then raise (Exception_ "not complete")
  else
    s <- on_attr cls "meta" meta set_meta Metadata.__str__ ;;
    b <- getattr cls "body" body ;;
    ret (s +:+ "body:" +:+ b +:+ newline).

End RecordBuilder.

(** ** The file system and the clock *)

(** A file object, as [open] returns one. *)
Record FileObj : Type := { f_name : string; f_closed : bool }.

(** What the functions of the module act on: the text of every file by
    path, the file objects created so far (a file object is referred to by
    its index) and the reading [time.time()] gives. *)
Record World : Type := {
  fs : gmap string string;
  fobjs : list FileObj;
  clock : pyfloat
}.

(** [open(path, 'a')]: the file is created when it does not exist, and a
    new open file object refers to it. *)
Definition open_a (path : string) : Py World nat :=
  fun w =>
    let fs' := match fs w !! path with
               | Some _ => fs w
               | None => <[path := EmptyString]> (fs w)
               end in
    (inr (length (fobjs w)),
     {| fs := fs';
        fobjs := fobjs w ++ [{| f_name := path; f_closed := false |}];
        clock := clock w |}).

(** [f.write(s)] on a file opened for appending. *)
Definition file_write (f : nat) (s : string) : Py World unit :=
  fun w =>
    match fobjs w !! f with
    | Some o =>
        if f_closed o then (inl (ValueError "I/O operation on closed file."), w)
        else
          (inr tt,
           {| fs := <[f_name o := default EmptyString (fs w !! f_name o) +:+ s]> (fs w);
              fobjs := fobjs w;
              clock := clock w |})
    | None => (inl (ValueError "I/O operation on closed file."), w)
    end.

(** [f.close()] *)
Definition file_close (f : nat) (w : World) : World :=
  {| fs := fs w;
     fobjs := alter (fun o => {| f_name := f_name o; f_closed := true |}) f (fobjs w);
     clock := clock w |}.

(** [with open(path, 'a') as f: body]: the file is closed when the body is
    left, whether it returns or raises. *)
Definition with_open_a {A : Type} (path : string) (body : nat -> Py World A)
  : Py World A :=
  f <- open_a path ;;
  fun w => let (r, w') := body f w in (r, file_close f w').

(** A method called on an object held in a local variable. *)
Definition on_local {W O A : Type} (m : Py O A) (o : O) : Py W (A * O) :=
  fun w =>
    match m o with
    | (inl e, _) => (inl e, w)
    | (inr a, o') => (inr (a, o'), w)
    end.

(** [RecordBuilder(feature)] where the clock is the world's. *)
Definition RecordBuilder_call (feature : Hashkey) : Py World RecordBuilder.t :=
  fun w => (RecordBuilder.call (clock w) feature, w).

(** [obj(author)] for an instance [obj] of [RecordBuilder]: the class
    defines no [__call__]. *)
Definition call_instance (obj : RecordBuilder.t) (author : Hashkey)
  : Py World RecordBuilder.t :=
  raise (TypeError "'RecordBuilder' object is not callable").

(** [record.meta.key] *)
Definition meta_key : Py RecordBuilder.t Hashkey :=
  on_attr RecordBuilder.cls "meta" RecordBuilder.meta RecordBuilder.set_meta
    (getattr "Metadata" "key" Metadata.key).

(** ** [write] *)

Definition write (path : string) (feature author : Hashkey) (content : string)
  : Py World Hashkey :=
  with_open_a path (fun f =>
    r <- RecordBuilder_call feature ;;
    r <- call_instance r author ;;
    ar <- on_local (RecordBuilder.append_body content) r ;;
    cr <- on_local RecordBuilder.complete (snd ar) ;;
    let record := snd cr in
    sr <- on_local RecordBuilder.result record ;;
    file_write f (fst sr) ;;
    kr <- on_local meta_key (snd sr) ;;
    ret (fst kr)).

(** ** [write_stream] and its two closures *)

Module Stream.

(** The variables the closures [append] and [complete] capture. *)
Record env : Type := { record : RecordBuilder.t; f : nat }.

Definition on_record {A : Type} (m : Py RecordBuilder.t A) : Py (env * World) A :=
  fun '(e, w) =>
    let (r, o) := m (record e) in (r, ({| record := o; f := f e |}, w)).

Definition on_world {A : Type} (m : nat -> Py World A) : Py (env * World) A :=
  fun '(e, w) => let (r, w') := m (f e) w in (r, (e, w')).

(** The closure [append] *)
Definition append (content : string) : Py (env * World) unit :=
  on_record (RecordBuilder.append_body content).

(** The closure [complete] *)
Definition complete : Py (env * World) Hashkey :=
  on_record RecordBuilder.complete ;;
  s <- on_record RecordBuilder.result ;;
  on_world (fun f => file_write f s) ;;
  on_record meta_key.

End Stream.

(** [write_stream] returns the pair of closures, that is, the variables
    they share. *)
Definition write_stream (path : string) (feature author : Hashkey)
  : Py World Stream.env :=
  with_open_a path (fun f =>
    r <- RecordBuilder_call feature ;;
    record <- call_instance r author ;;
    ret {| Stream.record := record; Stream.f := f |}).

(** ** The operations of a builder, and sample objects *)

Module Builder.

Import RecordBuilder.

(** A call of one of the methods of [RecordBuilder]. *)
Inductive Op : Type :=
| Init (now : pyfloat) (feature : Hashkey)
| AddAuthor (author : Hashkey)
| AppendBody (content : string)
| Complete
| Result.

(** The exception a call raised, if it raised one. *)
Definition raised {S A : Type} (r : (PyExc + A) * S) : option PyExc :=
  match fst r with
  | inl e => Some e
  | inr _ => None
  end.

(** The call [op] on [self]: the exception raised, if any, and the object
    the call leaves. *)
Definition exec (op : Op) (self : t) : option PyExc * t :=
  match op with
  | Init now feature => let r := __init__ now feature self in (raised r, snd r)
  | AddAuthor author => let r := __add_author author self in (raised r, snd r)
  | AppendBody content => let r := append_body content self in (raised r, snd r)
  | Complete => let r := complete self in (raised r, snd r)
  | Result => let r := result self in (raised r, snd r)
  end.

(** A caller that goes on after a call raised: [try: op except: pass]. *)
Fixpoint attempt_all (ops : list Op) (self : t) : t :=
  match ops with
  | [] => self
  | op :: ops' => attempt_all ops' (snd (exec op self))
  end.

(** [self.meta.size], [self.meta.key] and [self.meta.author] when they exist. *)
Definition size_of (self : t) : option Z := meta self ≫= Metadata.size.
Definition key_of (self : t) : option Hashkey := meta self ≫= Metadata.key.
Definition author_of (self : t) : option Hashkey := meta self ≫= Metadata.author.

(** The builder is sealed: its completion flag is set. *)
Definition sealed (self : t) : Prop := __complete self = Some true.

(** [self] with the author attribute of its metadata put to [a], [None]
    being a metadata object that has no author yet. *)
Definition with_author (a : option Hashkey) (self : t) : t :=
  match meta self with
  | Some m =>
      set_meta (Metadata.Build (Metadata.key m) (Metadata.feature m) a
                  (Metadata.created_at m) (Metadata.size m)) self
  | None => self
  end.

(** "The key is defined exactly when the builder is sealed." *)
Definition key_iff_sealed (self : t) : Prop :=
  is_Some (key_of self) <-> sealed self.

(** The exceptions of the state protocol: the plain [Exception] that the
    methods raise themselves. *)
Definition state_error (e : PyExc) : Prop :=
  match e with
  | Exception_ _ => True
  | _ => False
  end.

Definition stamp : pyfloat := PyFloat "1683072000.25".

(** A builder as [__init__] is written to leave it: metadata with the
    feature and the time, a new hash object, the flag down; no author. *)
Definition initializing : t :=
  Build (Some (Metadata.Build None (Some "featA") None (Some stamp) None))
        None (Some MD5.new) (Some false).

(** The same after [__add_author('authX')]. *)
Definition opened : t :=
  Build (Some (Metadata.Build None (Some "featA") (Some "authX") (Some stamp) None))
        None (Some MD5.new) (Some false).

(** [opened] with [body = ''] put in by hand. *)
Definition opened_with_body : t := set_body EmptyString opened.

(** [opened] with [body = ''] and [meta.size = 0] put in by hand. *)
Definition opened_with_body_and_size : t :=
  Build (Some (Metadata.Build None (Some "featA") (Some "authX") (Some stamp) (Some 0)))
        (Some EmptyString) (Some MD5.new) (Some false).

End Builder.

(** The world of the example in the docstring of [write]: no file yet. *)
Definition empty_world : World :=
  {| fs := ∅; fobjs := []; clock := Builder.stamp |}.

(** What opening and closing [path] leaves of the files: [path] exists. *)
Definition touched (path : string) (w : World) : gmap string string :=
  match fs w !! path with
  | Some _ => fs w
  | None => <[path := EmptyString]> (fs w)
  end.

(** ** [write_crypto] *)


Section WriteCrypto.

(** The library [rsa] is not part of the module. [rsa_encrypt] stands for
    [rsa.encrypt(message, pub_key)], which raises or returns bytes, and
    [sign_and_write data f] for [f.write(rsa.sign(data, privkey, "SHA-256"))],
    the global [privkey] included. The model is of the body of the function:
    the annotation [string] of [pub_key], a name the module does not define,
    plays no part in a call. *)
Variable PubKey : Type.
Variable rsa_encrypt : list byte -> PubKey -> World -> PyExc + list byte.
Variable sign_and_write : list byte -> nat -> Py World unit.


End WriteCrypto.

(** ** Further notions for the results *)

(** [self.meta.feature] and [self.meta.created_at] when they exist. *)
Definition feature_of (self : RecordBuilder.t) : option Hashkey :=
  RecordBuilder.meta self ≫= Metadata.feature.
Definition created_at_of (self : RecordBuilder.t) : option pyfloat :=
  RecordBuilder.meta self ≫= Metadata.created_at.

(** The line of a record, as the two f-strings of [Metadata] and the one of
    [result] put it together. *)
Definition record_line (k f a : Hashkey) (c : pyfloat) (n : Z) (b : string)
  : string :=
  "key:" +:+ k +:+ ";feature:" +:+ f +:+ ";author:" +:+ a
  +:+ ";create_at:" +:+ float_str c +:+ ";size:" +:+ int_str n
  +:+ ";body:" +:+ b +:+ newline.

(** The methods that raise before they assign anything. *)
Definition checks_first (op : Builder.Op) : Prop :=
  match op with
  | Builder.AddAuthor _ | Builder.Complete | Builder.Result => True
  | Builder.Init _ _ | Builder.AppendBody _ => False
  end.

(** All the contents of a list of appends, in order. *)
Fixpoint joined (contents : list string) : string :=
  match contents with
  | [] => EmptyString
  | c :: cs => c +:+ joined cs
  end.

(** A builder that has every attribute, by hand where no method gives it. *)
Definition complete_by_hand : RecordBuilder.t :=
  RecordBuilder.Build
    (Some (Metadata.Build None (Some "featA") (Some "authX")
             (Some Builder.stamp) (Some 5)))
    (Some "hello") (Some MD5.new) (Some false).

(** Worlds with one file and one file object for it, open or closed. *)
Definition world_with_file (closed : bool) : World :=
  {| fs := {[ "records.log" := "first" +:+ newline ]};
     fobjs := [{| f_name := "records.log"; f_closed := closed |}];
     clock := Builder.stamp |}.

(** The variables of the closures of a stream over that file object. *)
Definition session_by_hand : Stream.env :=
  {| Stream.record := complete_by_hand; Stream.f := 0%nat |}.

Import Builder.

(** * Results *)

(** ** The digest and the encoding on known values *)

(** The test suite of RFC 1321, in part. *)
Example md5_of_nothing :
  MD5.hexdigest MD5.new = "d41d8cd98f00b204e9800998ecf8427e".
Proof. vm_compute. reflexivity. Qed.

Example md5_of_abc :
  MD5.hexdigest (MD5.update (encode_utf8 "abc") MD5.new)
  = "900150983cd24fb0d6963f7d28e17f72".
Proof. vm_compute. reflexivity. Qed.

Example md5_of_eighty_digits :
  MD5.hexdigest_of
    (encode_utf8
       ("1234567890123456789012345678901234567890"
        +:+ "1234567890123456789012345678901234567890"))
  = "57edf4a22be3c955ac49da2e2107b67a".
Proof. vm_compute. reflexivity. Qed.

(** U+00E9 takes two bytes. *)
Example utf8_of_e_acute :
  encode_utf8 (String (ascii_of_nat 233) EmptyString) = [xc3; xa9].
Proof. reflexivity. Qed.

(** ** What each method does, case by case *)

Ltac run_py :=
  cbv [RecordBuilder.__init__ RecordBuilder.__add_author
       RecordBuilder.append_body RecordBuilder.complete RecordBuilder.result
       RecordBuilder.get___complete Metadata.__str__ Metadata.get_info
       meta_key bind ret raise getattr modify on_attr load_fast];
  simpl.

Ltac split_builder self :=
  destruct self as [[?m|] [?b|] [?h|] [[|]|]]; run_py.

(** [Metadata()] raises: [__init__] returns [self]. *)
Lemma Metadata_call_raises (now : pyfloat) :
  Metadata.call now
  = inl (TypeError "__init__() should return None, not 'Metadata'").
Proof. reflexivity. Qed.

(** [__init__] stops at its first line on an object without [meta], and at
    [Metadata()] otherwise, having put the feature in the old metadata. *)
Lemma init_outcome (now : pyfloat) (feature : Hashkey) (self : RecordBuilder.t) :
  RecordBuilder.__init__ now feature self
  = match RecordBuilder.meta self with
    | None => (inl (AttributeError "RecordBuilder" "meta"), self)
    | Some m =>
        (inl (TypeError "__init__() should return None, not 'Metadata'"),
         RecordBuilder.set_meta (Metadata.set_feature feature m) self)
    end.
Proof. split_builder self; reflexivity. Qed.

(** [append_body]: the flag is checked, [body] is read and extended, and
    the read of [encode] raises. *)
Lemma append_body_outcome (content : string) (self : RecordBuilder.t) :
  RecordBuilder.append_body content self
  = match RecordBuilder.__complete self with
    | None => (inl (AttributeError "RecordBuilder" "_RecordBuilder__complete"), self)
    | Some true => (inl (Exception_ "already complete"), self)
    | Some false =>
        match RecordBuilder.body self with
        | None => (inl (AttributeError "RecordBuilder" "body"), self)
        | Some b =>
            (inl (UnboundLocalError "encode"),
             RecordBuilder.set_body (b +:+ content) self)
        end
    end.
Proof. split_builder self; reflexivity. Qed.

(** [complete] on an open builder that has a hash object and metadata
    stores the digest of the bytes fed so far and raises the flag. *)
Lemma complete_outcome (self : RecordBuilder.t) :
  RecordBuilder.complete self
  = match RecordBuilder.__complete self with
    | None => (inl (AttributeError "RecordBuilder" "_RecordBuilder__complete"), self)
    | Some true => (inl (Exception_ "already complete"), self)
    | Some false =>
        match RecordBuilder.key_builder self, RecordBuilder.meta self with
        | None, _ => (inl (AttributeError "RecordBuilder" "key_builder"), self)
        | Some _, None => (inl (AttributeError "RecordBuilder" "meta"), self)
        | Some h, Some m =>
            (inr tt,
             RecordBuilder.Build (Some (Metadata.set_key (MD5.hexdigest h) m))
               (RecordBuilder.body self) (Some h) (Some true))
        end
    end.
Proof. split_builder self; reflexivity. Qed.

(** No method assigns [meta.size]. *)
Lemma size_never_written (op : Op) (self : RecordBuilder.t) :
  size_of (snd (exec op self)) = size_of self.
Proof.
  destruct op; simpl.
  - rewrite init_outcome. destruct (RecordBuilder.meta self) eqn:E; simpl.
    + unfold size_of. rewrite E. reflexivity.
    + reflexivity.
  - split_builder self; reflexivity.
  - rewrite append_body_outcome.
    destruct (RecordBuilder.__complete self) as [[|]|]; try reflexivity.
    destruct (RecordBuilder.body self); reflexivity.
  - rewrite complete_outcome.
    destruct (RecordBuilder.__complete self) as [[|]|]; try reflexivity.
    destruct (RecordBuilder.key_builder self); try reflexivity.
    destruct (RecordBuilder.meta self) eqn:E; try reflexivity.
    unfold size_of. simpl. rewrite E. reflexivity.
  - split_builder self; try reflexivity;
      destruct m as [[?|] [?|] [?|] [?|] [?|]]; reflexivity.
Qed.

(** No method creates the attribute [body]. *)
Lemma body_never_initialised (op : Op) (self : RecordBuilder.t) :
  RecordBuilder.body self = None ->
  RecordBuilder.body (snd (exec op self)) = None.
Proof.
  intros Hb. destruct op; simpl.
  - rewrite init_outcome. destruct (RecordBuilder.meta self); exact Hb.
  - destruct self as [[?m|] b [?h|] [[|]|]]; exact Hb.
  - rewrite append_body_outcome, Hb.
    destruct (RecordBuilder.__complete self) as [[|]|]; exact Hb.
  - rewrite complete_outcome.
    destruct (RecordBuilder.__complete self) as [[|]|]; try exact Hb.
    destruct (RecordBuilder.key_builder self); try exact Hb.
    destruct (RecordBuilder.meta self); exact Hb.
  - destruct self as [m b h c]. simpl in Hb. subst b.
    destruct c as [[|]|]; try reflexivity.
    destruct m as [[[?|] [?|] [?|] [?|] [?|]]|]; reflexivity.
Qed.

(** Only [complete] touches the key and the flag. *)
Lemma key_and_flag_framed (op : Op) (self : RecordBuilder.t) :
  op <> Complete ->
  key_of (snd (exec op self)) = key_of self
  /\ RecordBuilder.__complete (snd (exec op self)) = RecordBuilder.__complete self.
Proof.
  intros Hop. destruct op; try congruence; simpl.
  - rewrite init_outcome. unfold key_of.
    destruct (RecordBuilder.meta self) eqn:E; simpl; rewrite ?E; auto.
  - split_builder self; auto.
  - rewrite append_body_outcome.
    destruct (RecordBuilder.__complete self) as [[|]|] eqn:E; auto.
    destruct (RecordBuilder.body self); auto.
  - destruct self as [[[[?|] [?|] [?|] [?|] [?|]]|] [?|] [?|] [[|]|]]; auto.
Qed.

(** The invariant holds of an object just made, and every call keeps it. *)
Lemma key_iff_sealed_new : key_iff_sealed RecordBuilder.new.
Proof.
  split.
  - intros [k Hk]. discriminate Hk.
  - intros Hs. discriminate Hs.
Qed.

Lemma key_iff_sealed_step (op : Op) (self : RecordBuilder.t) :
  key_iff_sealed self -> key_iff_sealed (snd (exec op self)).
Proof.
  intros Hinv.
  assert (Hframe : op <> Complete -> key_iff_sealed (snd (exec op self))).
  { intros Hop. destruct (key_and_flag_framed op self Hop) as [Hk Hc].
    unfold key_iff_sealed, sealed. rewrite Hk, Hc. exact Hinv. }
  destruct op; try (apply Hframe; discriminate).
  simpl. rewrite complete_outcome.
  destruct (RecordBuilder.__complete self) as [[|]|] eqn:Ec; try exact Hinv.
  destruct (RecordBuilder.key_builder self) as [h|]; try exact Hinv.
  destruct (RecordBuilder.meta self) as [m|]; try exact Hinv.
  split; intros _; [reflexivity | eexists; reflexivity].
Qed.

(** X5. After any calls, raising ones included, a builder for which the key is
    defined exactly when it is sealed is still such a builder. *)
Lemma key_iff_sealed_always (ops : list Op) (self : RecordBuilder.t) :
  key_iff_sealed self -> key_iff_sealed (attempt_all ops self).
Proof.
  revert self. induction ops as [|op ops IH]; intros self Hinv; simpl.
  - exact Hinv.
  - apply IH, key_iff_sealed_step, Hinv.
Qed.

(** ** Construction *)

(** C9. [RecordBuilder(feature)] raises for every feature: the first line
    of [__init__] reads [self.meta] on an object that has no such
    attribute. Whatever object [__init__] is run on, it raises. And the
    metadata object that line 67 would assign, the one [Metadata.__init__]
    initialises, holds no feature. So no call returns a builder. *)
Theorem constructor_always_raises (now : pyfloat) (feature : Hashkey) :
  RecordBuilder.call now feature = inl (AttributeError "RecordBuilder" "meta")
  /\ (forall self : RecordBuilder.t,
        exists e self', RecordBuilder.__init__ now feature self = (inl e, self'))
  /\ (forall self : RecordBuilder.t,
        RecordBuilder.meta
          (RecordBuilder.set_meta (snd (Metadata.__init__ now Metadata.new)) self)
        ≫= Metadata.feature = None)
  /\ (forall built : RecordBuilder.t, RecordBuilder.call now feature <> inr built).
Proof.
  repeat split.
  - intros self. rewrite init_outcome.
    destruct (RecordBuilder.meta self); eauto.
  - intros built Hbuilt. discriminate Hbuilt.
Qed.

(** ** Appending *)

(** C10. A call of [append_body] on a builder whose flag is down raises
    before the hash object is touched, whatever the content, the empty
    string included: [AttributeError] for [body], or, when [body] exists,
    [UnboundLocalError] for [encode]. No call of [append_body] returns, on
    any object; no method changes [meta.size]; and no method creates
    [body]. *)
Theorem append_body_never_succeeds :
  (forall (self : RecordBuilder.t) (content : string),
      RecordBuilder.__complete self = Some false ->
      exists e self',
        RecordBuilder.append_body content self = (inl e, self')
        /\ (e = AttributeError "RecordBuilder" "body"
            \/ e = UnboundLocalError "encode")
        /\ RecordBuilder.key_builder self' = RecordBuilder.key_builder self
        /\ RecordBuilder.meta self' = RecordBuilder.meta self)
  /\ (forall (self : RecordBuilder.t) (content : string),
        exists e self', RecordBuilder.append_body content self = (inl e, self'))
  /\ (forall (op : Op) (self : RecordBuilder.t),
        size_of (snd (exec op self)) = size_of self)
  /\ (forall (op : Op) (self : RecordBuilder.t),
        RecordBuilder.body self = None ->
        RecordBuilder.body (snd (exec op self)) = None).
Proof.
  split; [|split; [|split]].
  - intros self content Hopen. rewrite append_body_outcome, Hopen.
    destruct (RecordBuilder.body self); eauto 10.
  - intros self content. rewrite append_body_outcome.
    destruct (RecordBuilder.__complete self) as [[|]|]; eauto.
    destruct (RecordBuilder.body self); eauto.
  - exact size_never_written.
  - exact body_never_initialised.
Qed.

Lemma append_body_never_succeeds_witness :
  RecordBuilder.__complete opened = Some false
  /\ exists e self',
       RecordBuilder.append_body EmptyString opened = (inl e, self')
       /\ (e = AttributeError "RecordBuilder" "body"
           \/ e = UnboundLocalError "encode")
       /\ RecordBuilder.key_builder self' = RecordBuilder.key_builder opened
       /\ RecordBuilder.meta self' = RecordBuilder.meta opened.
Proof.
  split.
  - reflexivity.
  - apply (proj1 append_body_never_succeeds opened EmptyString). reflexivity.
Defined.

(** ** Sealing *)

(** C2. Once [complete] has returned on a builder, a second call raises
    [Exception('already complete')] and leaves the builder as it was: its
    [meta.size] and [meta.key] in particular. *)
Theorem complete_twice_fails (self once : RecordBuilder.t) :
  RecordBuilder.complete self = (inr tt, once) ->
  RecordBuilder.complete once = (inl (Exception_ "already complete"), once)
  /\ size_of (snd (RecordBuilder.complete once)) = size_of once
  /\ key_of (snd (RecordBuilder.complete once)) = key_of once.
Proof.
  intros Hfirst.
  assert (Hflag : RecordBuilder.__complete once = Some true).
  { rewrite complete_outcome in Hfirst.
    destruct (RecordBuilder.__complete self) as [[|]|]; try discriminate.
    destruct (RecordBuilder.key_builder self); try discriminate.
    destruct (RecordBuilder.meta self); try discriminate.
    injection Hfirst as <-. reflexivity. }
  assert (Hsecond : RecordBuilder.complete once
                    = (inl (Exception_ "already complete"), once)).
  { rewrite complete_outcome, Hflag. reflexivity. }
  rewrite Hsecond. auto.
Qed.

Lemma complete_twice_fails_witness :
  RecordBuilder.complete opened = (inr tt, snd (RecordBuilder.complete opened))
  /\ RecordBuilder.complete (snd (RecordBuilder.complete opened))
     = (inl (Exception_ "already complete"), snd (RecordBuilder.complete opened)).
Proof.
  split.
  - reflexivity.
  - apply (complete_twice_fails opened). reflexivity.
Defined.

(** ** The order of the calls *)

(** C3, as the specification has it, fails: on a builder that has no author
    yet, [append_body] raises, but what it raises is not the exception of
    the state protocol. *)
Lemma append_before_author_no_state_error :
  author_of initializing = None
  /\ ~ (exists msg self',
          RecordBuilder.append_body "x" initializing
          = (inl (Exception_ msg), self')).
Proof.
  split.
  - reflexivity.
  - intros (msg & self' & Hrun). discriminate Hrun.
Qed.

(** C3, amended. [append_body] makes no check of the author: what it raises
    is the same whether or not [meta.author] is set, and it raises the
    exception of the state protocol exactly when the builder is sealed.
    [result] on a builder whose flag is down raises
    [Exception('not complete')] and changes nothing. *)
Theorem append_body_ignores_author (self : RecordBuilder.t) (content : string) :
  (forall a : option Hashkey,
      raised (RecordBuilder.append_body content (with_author a self))
      = raised (RecordBuilder.append_body content self))
  /\ ((exists e, raised (RecordBuilder.append_body content self) = Some e
                 /\ state_error e)
      <-> sealed self)
  /\ (RecordBuilder.__complete self = Some false ->
      RecordBuilder.result self = (inl (Exception_ "not complete"), self)).
Proof.
  split; [|split].
  - intros a. rewrite !append_body_outcome.
    destruct self as [[m|] [b|] h [[|]|]]; reflexivity.
  - rewrite append_body_outcome. unfold sealed, raised.
    destruct (RecordBuilder.__complete self) as [[|]|]; simpl.
    + split; [reflexivity | intros _; eexists; split; [reflexivity | exact I]].
    + destruct (RecordBuilder.body self); simpl;
        (split; [intros (e & [= <-] & []) | discriminate]).
    + split; [intros (e & [= <-] & []) | discriminate].
  - intros Hdown. destruct self as [m b h c]. simpl in Hdown. subst c.
    reflexivity.
Qed.

Lemma append_body_ignores_author_witness :
  RecordBuilder.__complete initializing = Some false
  /\ RecordBuilder.result initializing
     = (inl (Exception_ "not complete"), initializing).
Proof.
  split.
  - reflexivity.
  - apply (append_body_ignores_author initializing EmptyString). reflexivity.
Defined.

(** ** The key and the appended bytes *)

(** The hash object tells the bytes fed to it apart only by their
    concatenation. *)
Lemma md5_update_update (h : MD5.t) (a b : list byte) :
  MD5.update b (MD5.update a h) = MD5.update (a ++ b) h.
Proof. unfold MD5.update. simpl. rewrite app_assoc. reflexivity. Qed.

(** [append_body] leaves the hash object as it found it. *)
Lemma append_body_keeps_hash (content : string) (self : RecordBuilder.t) :
  RecordBuilder.key_builder (snd (RecordBuilder.append_body content self))
  = RecordBuilder.key_builder self.
Proof.
  rewrite append_body_outcome.
  destruct (RecordBuilder.__complete self) as [[|]|]; try reflexivity.
  destruct (RecordBuilder.body self); reflexivity.
Qed.

Lemma appends_keep_hash (contents : list string) (self : RecordBuilder.t) :
  RecordBuilder.key_builder (attempt_all (map AppendBody contents) self)
  = RecordBuilder.key_builder self.
Proof.
  revert self. induction contents as [|c cs IH]; intros self; simpl.
  - reflexivity.
  - rewrite IH. apply append_body_keeps_hash.
Qed.

(** The key [complete] stores is the digest of what the hash object holds. *)
Lemma complete_stores_digest (self once : RecordBuilder.t) :
  RecordBuilder.complete self = (inr tt, once) ->
  key_of once = MD5.hexdigest <$> RecordBuilder.key_builder self.
Proof.
  rewrite complete_outcome. intros Hrun.
  destruct (RecordBuilder.__complete self) as [[|]|]; try discriminate.
  destruct (RecordBuilder.key_builder self); try discriminate.
  destruct (RecordBuilder.meta self); try discriminate.
  injection Hrun as <-. reflexivity.
Qed.

(** C1, on the code. On an open builder whose [body] is [''],
    [append_body('abc')] extends the body and raises on [encode]; [complete]
    then stores the digest of no byte at all, not the digest of [abc]. *)
Theorem key_is_not_digest_of_body :
  let after := snd (RecordBuilder.append_body "abc" opened_with_body) in
  raised (RecordBuilder.append_body "abc" opened_with_body)
  = Some (UnboundLocalError "encode")
  /\ RecordBuilder.body after = Some "abc"
  /\ raised (RecordBuilder.complete after) = None
  /\ key_of (snd (RecordBuilder.complete after))
     = Some "d41d8cd98f00b204e9800998ecf8427e"
  /\ MD5.hexdigest_of [] = "d41d8cd98f00b204e9800998ecf8427e"
  /\ MD5.hexdigest_of (encode_utf8 "abc") = "900150983cd24fb0d6963f7d28e17f72".
Proof. vm_compute. repeat split. Qed.

(** C4, on the code. Neither way of appending [abc] gets to [complete]: the
    first [append_body] raises. A caller that goes on regardless gets the
    digest of no byte, the same for [ab] then [c], for [abc] and for
    [xyz]. *)
Theorem split_appends_yield_no_key :
  (RecordBuilder.append_body "ab" ;; RecordBuilder.append_body "c" ;;
   RecordBuilder.complete) opened
  = (inl (AttributeError "RecordBuilder" "body"), opened)
  /\ (RecordBuilder.append_body "abc" ;; RecordBuilder.complete) opened
     = (inl (AttributeError "RecordBuilder" "body"), opened)
  /\ raised ((RecordBuilder.append_body "abc" ;; RecordBuilder.complete)
               opened_with_body)
     = Some (UnboundLocalError "encode")
  /\ key_of (attempt_all [AppendBody "ab"; AppendBody "c"; Complete] opened)
     = Some "d41d8cd98f00b204e9800998ecf8427e"
  /\ key_of (attempt_all [AppendBody "abc"; Complete] opened)
     = Some "d41d8cd98f00b204e9800998ecf8427e"
  /\ key_of (attempt_all [AppendBody "xyz"; Complete] opened)
     = Some "d41d8cd98f00b204e9800998ecf8427e".
Proof. vm_compute. repeat split. Qed.

(** C5, on the code. The three appends of lengths 3, 0 and 5 raise, and
    [meta.size] is what it was: absent, or the 0 put in by hand. *)
Theorem size_not_accounted :
  let chunks := [AppendBody "abc"; AppendBody EmptyString; AppendBody "hello"] in
  raised (RecordBuilder.append_body "abc" opened)
  = Some (AttributeError "RecordBuilder" "body")
  /\ size_of (attempt_all chunks opened) = None
  /\ raised (RecordBuilder.append_body "abc" opened_with_body_and_size)
     = Some (UnboundLocalError "encode")
  /\ RecordBuilder.body (attempt_all chunks opened_with_body_and_size)
     = Some "abchello"
  /\ size_of (attempt_all chunks opened_with_body_and_size) = Some 0.
Proof. vm_compute. repeat split. Qed.

(** ** Rendering *)

Lemma string_app_assoc (s1 s2 s3 : string) :
  (s1 +:+ s2) +:+ s3 = s1 +:+ (s2 +:+ s3).
Proof.
  induction s1 as [|c s1 IH].
  - reflexivity.
  - change (String c ((s1 +:+ s2) +:+ s3) = String c (s1 +:+ (s2 +:+ s3))).
    f_equal. exact IH.
Qed.

(** On a sealed builder that has every attribute, [result] is the line of
    the record format, with the stored [meta.size] and the stored [body]. *)
Lemma result_format (k f a : Hashkey) (c : pyfloat) (n : Z) (b : string)
    (h : option MD5.t) :
  let self :=
    RecordBuilder.Build
      (Some (Metadata.Build (Some k) (Some f) (Some a) (Some c) (Some n)))
      (Some b) h (Some true) in
  RecordBuilder.result self
  = (inr ("key:" +:+ k +:+ ";feature:" +:+ f +:+ ";author:" +:+ a
          +:+ ";create_at:" +:+ float_str c +:+ ";size:" +:+ int_str n
          +:+ ";body:" +:+ b +:+ newline),
     self).
Proof.
  intros self. subst self.
  cbv [RecordBuilder.result RecordBuilder.get___complete Metadata.__str__
       Metadata.get_info bind ret raise getattr on_attr
       RecordBuilder.__complete RecordBuilder.meta RecordBuilder.body
       RecordBuilder.set_meta RecordBuilder.key_builder negb
       Metadata.key Metadata.feature Metadata.author Metadata.created_at
       Metadata.size].
  rewrite !string_app_assoc. reflexivity.
Qed.

(** C6, on the code. The builder that [complete] seals has no [meta.size],
    and [result] raises on it. With [body] and [meta.size] put in by hand,
    the line [result] gives carries the size put in, 0, next to the three
    characters of the body. *)
Theorem result_of_sealed_raises :
  let once := snd (RecordBuilder.complete opened) in
  let forced :=
    attempt_all [AppendBody "abc"; Complete] opened_with_body_and_size in
  raised (RecordBuilder.complete opened) = None
  /\ sealed once
  /\ RecordBuilder.result once = (inl (AttributeError "Metadata" "size"), once)
  /\ fst (RecordBuilder.result forced)
     = inr ("key:d41d8cd98f00b204e9800998ecf8427e;feature:featA;author:authX;"
            +:+ "create_at:1683072000.25;size:0;body:abc" +:+ newline).
Proof. vm_compute. repeat split. Qed.

(** ** [write] and [write_stream] *)

(** C7, on the code. [write] raises for every argument: the builder is never
    made, nothing is rendered and nothing is appended. The file is opened
    and closed, which creates it when it did not exist. *)
Theorem write_always_raises (w : World) (path : string)
    (feature author : Hashkey) (content : string) :
  fst (write path feature author content w)
  = inl (AttributeError "RecordBuilder" "meta")
  /\ fs (snd (write path feature author content w)) = touched path w
  /\ touched path w !! path = Some (default EmptyString (fs w !! path)).
Proof.
  repeat split.
  unfold touched. destruct (fs w !! path) eqn:E; simpl.
  - exact E.
  - apply lookup_insert_eq.
Qed.

(** The example of the docstring of [write]. *)
Lemma write_docstring_example :
  let r := write "example.txt" "feature123" "author123" "example content"
             empty_world in
  fst r = inl (AttributeError "RecordBuilder" "meta")
  /\ fs (snd r) !! "example.txt" = Some EmptyString.
Proof. split; reflexivity. Qed.

(** C8, on the code. [write_stream] raises for every argument, so no pair of
    closures is ever returned; as with [write], the file is only opened and
    closed. *)
Theorem write_stream_always_raises (w : World) (path : string)
    (feature author : Hashkey) :
  fst (write_stream path feature author w)
  = inl (AttributeError "RecordBuilder" "meta")
  /\ (forall session : Stream.env,
        fst (write_stream path feature author w) <> inr session)
  /\ fs (snd (write_stream path feature author w)) = touched path w.
Proof.
  repeat split. intros session Hret. discriminate Hret.
Qed.

(** X20. The closure [append] on a sealed record raises the exception of the
    state protocol. *)
Lemma stream_append_after_seal (e : Stream.env) (w : World) (content : string) :
  sealed (Stream.record e) ->
  Stream.append content (e, w) = (inl (Exception_ "already complete"), (e, w)).
Proof.
  intros Hsealed. unfold Stream.append, Stream.on_record.
  rewrite append_body_outcome, Hsealed. destruct e; reflexivity.
Qed.

(** [with open(...)] leaves the file object it made closed. *)
Lemma with_open_a_closes {A : Type} (path : string) (body : nat -> Py World A)
    (w : World) :
  (forall f w0, fobjs (snd (body f w0)) = fobjs w0) ->
  fobjs (snd (with_open_a path body w)) !! length (fobjs w)
  = Some {| f_name := path; f_closed := true |}.
Proof.
  intros Hbody. unfold with_open_a, bind, open_a.
  specialize (Hbody (length (fobjs w))).
  match goal with |- context [body _ ?w0] =>
    specialize (Hbody w0); destruct (body (length (fobjs w)) w0) as [r w']
  end.
  simpl in *. rewrite Hbody.
  rewrite list_lookup_alter.
  rewrite lookup_app_r by reflexivity.
  rewrite Nat.sub_diag. case_decide; [reflexivity | congruence].
Qed.

(** Writing through a closed file object raises and writes nothing. *)
Lemma file_write_closed (f : nat) (s : string) (w : World) (o : FileObj) :
  fobjs w !! f = Some o ->
  f_closed o = true ->
  file_write f s w = (inl (ValueError "I/O operation on closed file."), w).
Proof. intros Hf Hclosed. unfold file_write. rewrite Hf, Hclosed. reflexivity. Qed.

(** X22. The closure [complete] called when the file object is closed, as
    [write_stream] leaves it, writes nothing. *)
Lemma stream_complete_on_closed_file (e : Stream.env) (w : World) (o : FileObj) :
  fobjs w !! Stream.f e = Some o ->
  f_closed o = true ->
  exists exc, fst (Stream.complete (e, w)) = inl exc
              /\ fs (snd (snd (Stream.complete (e, w)))) = fs w.
Proof.
  intros Hf Hclosed. destruct e as [record f]. simpl in Hf.
  unfold Stream.complete, Stream.on_record, Stream.on_world, bind.
  cbn [Stream.record Stream.f].
  destruct (RecordBuilder.complete record) as [[exc|[]] r1]; [eauto|].
  cbn [Stream.record Stream.f].
  destruct (RecordBuilder.result r1) as [[exc|s] r2]; [eauto|].
  cbn [Stream.record Stream.f].
  rewrite (file_write_closed f s w o Hf Hclosed). eauto.
Qed.

(** * Further results on the methods *)

(** ** What the other methods do, case by case *)

Lemma set_meta_same (self : RecordBuilder.t) (m : Metadata.t) :
  RecordBuilder.meta self = Some m -> RecordBuilder.set_meta m self = self.
Proof. destruct self as [m' b h c]. simpl. intros ->. reflexivity. Qed.

Lemma add_author_outcome (author : Hashkey) (self : RecordBuilder.t) :
  RecordBuilder.__add_author author self
  = match RecordBuilder.__complete self with
    | None => (inl (AttributeError "RecordBuilder" "_RecordBuilder__complete"), self)
    | Some true => (inl (Exception_ "already complete"), self)
    | Some false =>
        match RecordBuilder.meta self with
        | None => (inl (AttributeError "RecordBuilder" "meta"), self)
        | Some m =>
            (inr tt, RecordBuilder.set_meta (Metadata.set_author author m) self)
        end
    end.
Proof. split_builder self; reflexivity. Qed.

Lemma get_info_unchanged (m : Metadata.t) : snd (Metadata.get_info m) = m.
Proof. destruct m as [k [f|] [a|] [c|] [n|]]; reflexivity. Qed.

Lemma str_unchanged (m : Metadata.t) : snd (Metadata.__str__ m) = m.
Proof. destruct m as [[k|] [f|] [a|] [c|] [n|]]; reflexivity. Qed.

Lemma result_unchanged (self : RecordBuilder.t) :
  snd (RecordBuilder.result self) = self.
Proof.
  destruct self as [[[[k|] [f|] [a|] [c|] [n|]]|] [b|] h [[|]|]]; reflexivity.
Qed.

(** No method feeds or replaces the hash object. *)
Lemma hash_framed (op : Op) (self : RecordBuilder.t) :
  RecordBuilder.key_builder (snd (exec op self)) = RecordBuilder.key_builder self.
Proof.
  destruct op; simpl.
  - rewrite init_outcome. destruct (RecordBuilder.meta self); reflexivity.
  - rewrite add_author_outcome.
    destruct (RecordBuilder.__complete self) as [[|]|]; try reflexivity.
    destruct (RecordBuilder.meta self); reflexivity.
  - apply append_body_keeps_hash.
  - rewrite complete_outcome.
    destruct self as [[m|] b [h|] [[|]|]]; reflexivity.
  - rewrite result_unchanged. reflexivity.
Qed.

(** ** Assigning the author *)

(** X1. [__add_author] returns exactly on a builder whose flag is down and that
    has metadata; it then puts the author in and changes nothing else, and
    when it raises it changes nothing at all. *)
Theorem add_author_returns_iff (author : Hashkey) (self : RecordBuilder.t) :
  (raised (RecordBuilder.__add_author author self) = None
   <-> RecordBuilder.__complete self = Some false
       /\ is_Some (RecordBuilder.meta self))
  /\ snd (RecordBuilder.__add_author author self)
     = match raised (RecordBuilder.__add_author author self) with
       | None => with_author (Some author) self
       | Some _ => self
       end.
Proof.
  rewrite add_author_outcome. unfold raised, with_author.
  destruct self as [[m|] b h [[|]|]]; simpl.
  all: split; [|reflexivity].
  all: split;
    [ intros Hr; try discriminate Hr; (split; [reflexivity | eexists; reflexivity])
    | intros [Hc [m' Hm]]; try discriminate Hc; try discriminate Hm; reflexivity ].
Qed.

(** X2. The author can be assigned again: of two calls in a row the second
    decides, as if the first had not been made. *)
Theorem add_author_last_wins (first second : Hashkey) (self : RecordBuilder.t) :
  exec (AddAuthor second) (snd (exec (AddAuthor first) self))
  = exec (AddAuthor second) self.
Proof.
  simpl. rewrite !add_author_outcome.
  destruct self as [[m|] b h [[|]|]]; reflexivity.
Qed.

(** ** A sealed builder *)

(** X3. On a sealed builder [__add_author], [append_body] and [complete] raise
    [Exception('already complete')], and these three and [result] leave the
    builder exactly as it was. *)
Theorem sealed_builder_is_frozen (self : RecordBuilder.t) :
  sealed self ->
  (forall author, exec (AddAuthor author) self
                  = (Some (Exception_ "already complete"), self))
  /\ (forall content, exec (AppendBody content) self
                      = (Some (Exception_ "already complete"), self))
  /\ exec Complete self = (Some (Exception_ "already complete"), self)
  /\ snd (exec Result self) = self.
Proof.
  unfold sealed. intros Hsealed. repeat split; try intros ?; simpl.
  - rewrite add_author_outcome, Hsealed. reflexivity.
  - rewrite append_body_outcome, Hsealed. reflexivity.
  - rewrite complete_outcome, Hsealed. reflexivity.
  - apply result_unchanged.
Qed.

Lemma sealed_builder_is_frozen_witness :
  sealed (snd (RecordBuilder.complete opened))
  /\ exec Complete (snd (RecordBuilder.complete opened))
     = (Some (Exception_ "already complete"), snd (RecordBuilder.complete opened)).
Proof.
  split.
  - reflexivity.
  - apply (sealed_builder_is_frozen (snd (RecordBuilder.complete opened))).
    reflexivity.
Defined.

(** X4. No sequence of calls, [__init__] included, unseals a builder or changes
    its key. *)
Theorem sealed_is_terminal (ops : list Op) (self : RecordBuilder.t) :
  sealed self ->
  sealed (attempt_all ops self) /\ key_of (attempt_all ops self) = key_of self.
Proof.
  revert self. induction ops as [|op ops IH]; intros self Hsealed; simpl.
  - split; [exact Hsealed | reflexivity].
  - assert (Hstep : sealed (snd (exec op self))
                    /\ key_of (snd (exec op self)) = key_of self).
    { destruct op;
        try (match goal with |- context [exec ?o _] =>
               destruct (key_and_flag_framed o self ltac:(discriminate)) as [Hk Hc]
             end;
             split; [unfold sealed; rewrite Hc; exact Hsealed | exact Hk]).
      simpl. rewrite complete_outcome. unfold sealed in Hsealed.
      rewrite Hsealed. split; [exact Hsealed | reflexivity]. }
    destruct Hstep as [Hs Hk]. destruct (IH _ Hs) as [Hs' Hk'].
    split; [exact Hs' | rewrite Hk'; exact Hk].
Qed.

Lemma sealed_is_terminal_witness :
  let once := snd (RecordBuilder.complete opened) in
  let calls := [Init stamp "other"; AddAuthor "z"; AppendBody "abc"; Complete] in
  sealed once
  /\ sealed (attempt_all calls once)
  /\ key_of (attempt_all calls once) = key_of once.
Proof.
  split.
  - reflexivity.
  - apply (sealed_is_terminal
             [Init stamp "other"; AddAuthor "z"; AppendBody "abc"; Complete]
             (snd (RecordBuilder.complete opened))).
    reflexivity.
Defined.

Lemma key_iff_sealed_always_witness :
  let calls := [AppendBody "abc"; Complete; AddAuthor "z"; Result] in
  key_iff_sealed opened /\ key_iff_sealed (attempt_all calls opened).
Proof.
  assert (Hstart : key_iff_sealed opened).
  { split.
    - intros [k Hk]. discriminate Hk.
    - intros Hs. discriminate Hs. }
  split.
  - exact Hstart.
  - apply (key_iff_sealed_always
             [AppendBody "abc"; Complete; AddAuthor "z"; Result] opened Hstart).
Defined.

(** X6. [__add_author], [complete] and [result] check before they assign: a
    call of one of them that raises leaves the builder as it was. *)
Theorem raising_call_changes_nothing (op : Op) (self : RecordBuilder.t) :
  checks_first op ->
  fst (exec op self) <> None ->
  snd (exec op self) = self.
Proof.
  intros Hop Hraised. destruct op; try contradiction; simpl in *.
  - unfold raised in Hraised. rewrite add_author_outcome in *.
    destruct (RecordBuilder.__complete self) as [[|]|]; try reflexivity.
    destruct (RecordBuilder.meta self); [contradiction Hraised|]; reflexivity.
  - unfold raised in Hraised. rewrite complete_outcome in *.
    destruct (RecordBuilder.__complete self) as [[|]|]; try reflexivity.
    destruct (RecordBuilder.key_builder self); try reflexivity.
    destruct (RecordBuilder.meta self); [contradiction Hraised|]; reflexivity.
  - apply result_unchanged.
Qed.

Lemma raising_call_changes_nothing_witness :
  checks_first Complete
  /\ fst (exec Complete RecordBuilder.new) <> None
  /\ snd (exec Complete RecordBuilder.new) = RecordBuilder.new.
Proof.
  split; [exact I | split].
  - discriminate.
  - apply (raising_call_changes_nothing Complete RecordBuilder.new).
    + exact I.
    + discriminate.
Defined.

(** ** Rendering, further *)

(** X7. Rendering reads and never writes: [result], [get_info] and [__str__]
    leave their object as it was, whether they return or raise. *)
Theorem rendering_is_read_only :
  (forall self : RecordBuilder.t, snd (RecordBuilder.result self) = self)
  /\ (forall m : Metadata.t, snd (Metadata.get_info m) = m)
  /\ (forall m : Metadata.t, snd (Metadata.__str__ m) = m).
Proof.
  split; [exact result_unchanged | split; [exact get_info_unchanged | exact str_unchanged]].
Qed.

(** X8. [result] returns a line exactly on a sealed builder that has its five
    metadata attributes and its body, and the line is then the record line
    made of them. *)
Theorem result_returns_iff (self : RecordBuilder.t) (line : string) :
  fst (RecordBuilder.result self) = inr line
  <-> exists k f a c n b,
        sealed self
        /\ RecordBuilder.meta self
           = Some (Metadata.Build (Some k) (Some f) (Some a) (Some c) (Some n))
        /\ RecordBuilder.body self = Some b
        /\ line = record_line k f a c n b.
Proof.
  split.
  - destruct self as [[[[k|] [f|] [a|] [c|] [n|]]|] [b|] h [[|]|]];
      try (intros Hr; discriminate Hr).
    pose proof (result_format k f a c n b h) as Hf. cbv zeta in Hf.
    rewrite Hf. simpl. intros [= <-].
    exists k, f, a, c, n, b. repeat split.
  - intros (k & f & a & c & n & b & Hs & Hm & Hb & ->).
    destruct self as [m b' h fl]. unfold sealed in Hs. simpl in Hs, Hm, Hb.
    subst m b' fl.
    pose proof (result_format k f a c n b h) as Hf. cbv zeta in Hf.
    rewrite Hf. reflexivity.
Qed.

(** X9. [__str__] reads the key first and raises when there is none; otherwise it
    is [get_info] behind the key. [get_info] itself does not read the key. *)
Theorem str_is_key_then_info (m : Metadata.t) :
  fst (Metadata.__str__ m)
  = match Metadata.key m with
    | None => inl (AttributeError "Metadata" "key")
    | Some k =>
        match fst (Metadata.get_info m) with
        | inl e => inl e
        | inr info => inr ("key:" +:+ k +:+ ";" +:+ info)
        end
    end
  /\ (forall k, fst (Metadata.get_info (Metadata.set_key k m))
                = fst (Metadata.get_info m)).
Proof.
  split.
  - destruct m as [[k|] [f|] [a|] [c|] [n|]]; reflexivity.
  - intros k'. destruct m as [k [f|] [a|] [c|] [n|]]; reflexivity.
Qed.

(** ** Sealing, further *)

(** X10. A call of [complete] that returns has sealed the builder and stored the
    digest of what the hash object holds; body, hash object and the other
    metadata are as before. *)
Theorem complete_seals_with_digest (self once : RecordBuilder.t) :
  RecordBuilder.complete self = (inr tt, once) ->
  sealed once
  /\ key_of once = MD5.hexdigest <$> RecordBuilder.key_builder self
  /\ RecordBuilder.body once = RecordBuilder.body self
  /\ RecordBuilder.key_builder once = RecordBuilder.key_builder self
  /\ size_of once = size_of self
  /\ author_of once = author_of self
  /\ feature_of once = feature_of self
  /\ created_at_of once = created_at_of self.
Proof.
  rewrite complete_outcome.
  destruct self as [[m|] b [h|] [[|]|]]; simpl; intros Hrun;
    try discriminate Hrun.
  injection Hrun as <-. repeat split.
Qed.

Lemma complete_seals_with_digest_witness :
  let once := snd (RecordBuilder.complete opened) in
  RecordBuilder.complete opened = (inr tt, once)
  /\ sealed once
  /\ key_of once = MD5.hexdigest <$> RecordBuilder.key_builder opened.
Proof.
  split.
  - reflexivity.
  - split; apply (complete_seals_with_digest opened
                    (snd (RecordBuilder.complete opened)) eq_refl).
Defined.

Lemma hash_framed_all (ops : list Op) (self : RecordBuilder.t) :
  RecordBuilder.key_builder (attempt_all ops self)
  = RecordBuilder.key_builder self.
Proof.
  revert self. induction ops as [|op ops IH]; intros self; simpl.
  - reflexivity.
  - rewrite IH. apply hash_framed.
Qed.

(** X11. Whatever calls are made before it, the key that [complete] stores is the
    digest of what the hash object held at the start: no call made on the
    builder has any say in it. *)
Theorem key_fixed_by_initial_hash (ops : list Op)
    (self once : RecordBuilder.t) :
  RecordBuilder.complete (attempt_all ops self) = (inr tt, once) ->
  key_of once = MD5.hexdigest <$> RecordBuilder.key_builder self.
Proof.
  intros Hrun. rewrite (complete_stores_digest _ _ Hrun), hash_framed_all.
  reflexivity.
Qed.

Lemma key_fixed_by_initial_hash_witness :
  let calls := [AppendBody "hello"; AddAuthor "z"; AppendBody " world"] in
  let once := snd (RecordBuilder.complete (attempt_all calls opened_with_body)) in
  RecordBuilder.complete (attempt_all calls opened_with_body) = (inr tt, once)
  /\ key_of once = MD5.hexdigest <$> RecordBuilder.key_builder opened_with_body.
Proof.
  split.
  - reflexivity.
  - apply (key_fixed_by_initial_hash
             [AppendBody "hello"; AddAuthor "z"; AppendBody " world"]
             opened_with_body).
    reflexivity.
Defined.

(** ** The body *)

Lemma string_app_nil_r (s : string) : s +:+ EmptyString = s.
Proof.
  induction s as [|c s IH].
  - reflexivity.
  - change (String c (s +:+ EmptyString) = String c s). f_equal. exact IH.
Qed.

(** X12. On an open builder that has a body, the appends raise one after the
    other and yet the body takes every content, in order; the flag stays
    down. *)
Theorem appends_concatenate_body (contents : list string)
    (self : RecordBuilder.t) (b : string) :
  RecordBuilder.__complete self = Some false ->
  RecordBuilder.body self = Some b ->
  RecordBuilder.body (attempt_all (map AppendBody contents) self)
  = Some (b +:+ joined contents)
  /\ RecordBuilder.__complete (attempt_all (map AppendBody contents) self)
     = Some false.
Proof.
  revert self b. induction contents as [|c cs IH]; intros self b Hopen Hbody.
  - simpl. rewrite string_app_nil_r. split; assumption.
  - cbn [map attempt_all joined exec].
    rewrite append_body_outcome, Hopen, Hbody. cbn [snd].
    destruct (IH (RecordBuilder.set_body (b +:+ c) self) (b +:+ c) Hopen eq_refl)
      as [Hb Hc].
    rewrite Hb, Hc, string_app_assoc. split; reflexivity.
Qed.

Lemma appends_concatenate_body_witness :
  let after := attempt_all (map AppendBody ["ab"; EmptyString; "c"])
                 opened_with_body in
  RecordBuilder.__complete opened_with_body = Some false
  /\ RecordBuilder.body opened_with_body = Some EmptyString
  /\ RecordBuilder.body after = Some "abc"
  /\ RecordBuilder.__complete after = Some false.
Proof.
  split; [reflexivity | split; [reflexivity |]].
  apply (appends_concatenate_body ["ab"; EmptyString; "c"] opened_with_body
           EmptyString); reflexivity.
Defined.

Lemma body_grows (op : Op) (self : RecordBuilder.t) (b : string) :
  RecordBuilder.body self = Some b ->
  exists suffix, RecordBuilder.body (snd (exec op self)) = Some (b +:+ suffix).
Proof.
  intros Hbody.
  assert (Hsame : Some b = Some (b +:+ EmptyString))
    by (rewrite string_app_nil_r; reflexivity).
  destruct op; simpl.
  - rewrite init_outcome. exists EmptyString.
    destruct (RecordBuilder.meta self); simpl; rewrite Hbody; exact Hsame.
  - rewrite add_author_outcome. exists EmptyString.
    destruct (RecordBuilder.__complete self) as [[|]|];
      try (simpl; rewrite Hbody; exact Hsame).
    destruct (RecordBuilder.meta self); simpl; rewrite Hbody; exact Hsame.
  - rewrite append_body_outcome, Hbody.
    destruct (RecordBuilder.__complete self) as [[|]|];
      [ exists EmptyString | exists content | exists EmptyString ];
      simpl; rewrite ?Hbody; try exact Hsame; reflexivity.
  - rewrite complete_outcome. exists EmptyString.
    destruct (RecordBuilder.__complete self) as [[|]|];
      try (simpl; rewrite Hbody; exact Hsame).
    destruct (RecordBuilder.key_builder self);
      try (simpl; rewrite Hbody; exact Hsame).
    destruct (RecordBuilder.meta self); simpl; rewrite Hbody; exact Hsame.
  - rewrite result_unchanged, Hbody. exists EmptyString. exact Hsame.
Qed.

(** X13. The body is only ever extended: after any calls it starts with what it
    was. No method cuts it, clears it or removes it. *)
Theorem body_is_append_only (ops : list Op) (self : RecordBuilder.t)
    (b : string) :
  RecordBuilder.body self = Some b ->
  exists suffix,
    RecordBuilder.body (attempt_all ops self) = Some (b +:+ suffix).
Proof.
  revert self b. induction ops as [|op ops IH]; intros self b Hbody; simpl.
  - exists EmptyString. rewrite string_app_nil_r. exact Hbody.
  - destruct (body_grows op self b Hbody) as [s1 H1].
    destruct (IH _ _ H1) as [s2 H2].
    exists (s1 +:+ s2). rewrite H2, string_app_assoc. reflexivity.
Qed.

Lemma body_is_append_only_witness :
  let calls := [AppendBody "abc"; Complete; AppendBody "x"; Init stamp "g"] in
  RecordBuilder.body opened_with_body_and_size = Some EmptyString
  /\ exists suffix,
       RecordBuilder.body (attempt_all calls opened_with_body_and_size)
       = Some (EmptyString +:+ suffix).
Proof.
  split.
  - reflexivity.
  - apply (body_is_append_only
             [AppendBody "abc"; Complete; AppendBody "x"; Init stamp "g"]
             opened_with_body_and_size EmptyString).
    reflexivity.
Defined.

(** ** What no method writes *)

Lemma created_at_framed (op : Op) (self : RecordBuilder.t) :
  created_at_of (snd (exec op self)) = created_at_of self.
Proof.
  destruct op; simpl.
  - rewrite init_outcome. destruct self as [[m|] b h c]; reflexivity.
  - rewrite add_author_outcome. destruct self as [[m|] b h [[|]|]]; reflexivity.
  - rewrite append_body_outcome. destruct self as [m [b|] h [[|]|]]; reflexivity.
  - rewrite complete_outcome. destruct self as [[m|] b [h|] [[|]|]]; reflexivity.
  - rewrite result_unchanged. reflexivity.
Qed.

(** X14. No sequence of calls feeds or replaces the hash object, and none changes
    the time of creation. *)
Theorem hash_and_timestamp_never_written (ops : list Op)
    (self : RecordBuilder.t) :
  RecordBuilder.key_builder (attempt_all ops self)
  = RecordBuilder.key_builder self
  /\ created_at_of (attempt_all ops self) = created_at_of self.
Proof.
  split.
  - apply hash_framed_all.
  - revert self. induction ops as [|op ops IH]; intros self; simpl.
    + reflexivity.
    + rewrite IH. apply created_at_framed.
Qed.

(** ** Construction, further *)

(** X15. [__init__] run on an existing builder resets nothing: lines 67 to 69 are
    not reached, so flag, hash object, body, key, author, size and time stay,
    and the one thing written is the feature, in the metadata that was
    there. *)
Theorem init_resets_nothing (now : pyfloat) (feature : Hashkey)
    (self : RecordBuilder.t) :
  let after := snd (RecordBuilder.__init__ now feature self) in
  RecordBuilder.__complete after = RecordBuilder.__complete self
  /\ RecordBuilder.key_builder after = RecordBuilder.key_builder self
  /\ RecordBuilder.body after = RecordBuilder.body self
  /\ key_of after = key_of self
  /\ author_of after = author_of self
  /\ size_of after = size_of self
  /\ created_at_of after = created_at_of self
  /\ feature_of after = (RecordBuilder.meta self ≫= fun _ => Some feature).
Proof.
  cbv zeta. rewrite init_outcome.
  destruct self as [[m|] b h c]; repeat split.
Qed.

(** X16. [Metadata()] never gives an object: [__init__] sets the time and then
    returns [self], which the call turns into a [TypeError]. *)
Theorem Metadata_is_never_constructed (now : pyfloat) :
  Metadata.call now
  = inl (TypeError "__init__() should return None, not 'Metadata'")
  /\ (forall m : Metadata.t,
        Metadata.__init__ now m
        = (inr (ReturnsObject "Metadata"), Metadata.set_created_at now m))
  /\ (forall built : Metadata.t, Metadata.call now <> inr built).
Proof.
  repeat split. intros built Hbuilt. discriminate Hbuilt.
Qed.

(** * Further results on the functions *)

(** ** The file object of [write] and [write_stream] *)



(** ** [write_crypto] *)


(** ** The closures of [write_stream] *)

Lemma meta_key_unchanged (r : RecordBuilder.t) : snd (meta_key r) = r.
Proof. destruct r as [[[[k|] f a c n]|] b h fl]; reflexivity. Qed.

Lemma complete_raises_flag (self once : RecordBuilder.t) :
  RecordBuilder.complete self = (inr tt, once) -> sealed once.
Proof.
  rewrite complete_outcome.
  destruct self as [[m|] b [h|] [[|]|]]; simpl; intros Hrun;
    try discriminate Hrun.
  injection Hrun as <-. reflexivity.
Qed.

Lemma stream_complete_on_sealed (e : Stream.env) (w : World) :
  sealed (Stream.record e) ->
  Stream.complete (e, w) = (inl (Exception_ "already complete"), (e, w)).
Proof.
  intros Hsealed. unfold Stream.complete, Stream.on_record, bind.
  rewrite complete_outcome, Hsealed. destruct e; reflexivity.
Qed.

(** Where the closure [complete] leaves the record when [record.complete()]
    went through: sealed, whatever came after. *)
Lemma stream_complete_leaves_sealed (e : Stream.env) (w : World) :
  raised (RecordBuilder.complete (Stream.record e)) = None ->
  exists once w',
    snd (Stream.complete (e, w))
    = ({| Stream.record := once; Stream.f := Stream.f e |}, w')
    /\ sealed once.
Proof.
  destruct e as [r fi]. cbn [Stream.record Stream.f]. intros Hret.
  unfold Stream.complete, Stream.on_record, Stream.on_world, bind.
  cbn [Stream.record Stream.f].
  destruct (RecordBuilder.complete r) as [[exc|[]] once] eqn:Hc;
    [discriminate Hret|].
  pose proof (complete_raises_flag r once Hc) as Hsealed.
  cbn [Stream.record Stream.f].
  pose proof (result_unchanged once) as Hres.
  destruct (RecordBuilder.result once) as [[exc|s] r2]; simpl in Hres; subst r2.
  { eauto. }
  cbn [Stream.record Stream.f].
  destruct (file_write fi s w) as [[exc|[]] w1].
  { eauto. }
  cbn [Stream.record Stream.f].
  pose proof (meta_key_unchanged once) as Hk.
  destruct (meta_key once) as [[exc|k] r3]; simpl in Hk; subst r3; eauto.
Qed.

(** X19. The closure [append] never returns and reaches neither the file nor
    the hash object: all it may do is extend the body of the record. *)
Theorem stream_append_never_returns (e : Stream.env) (w : World)
    (content : string) :
  exists exc r,
    Stream.append content (e, w)
    = (inl exc, ({| Stream.record := r; Stream.f := Stream.f e |}, w))
    /\ RecordBuilder.key_builder r = RecordBuilder.key_builder (Stream.record e)
    /\ RecordBuilder.meta r = RecordBuilder.meta (Stream.record e)
    /\ RecordBuilder.__complete r = RecordBuilder.__complete (Stream.record e).
Proof.
  destruct e as [r fi]. unfold Stream.append, Stream.on_record.
  cbn [Stream.record Stream.f]. rewrite append_body_outcome.
  destruct r as [m [b|] h [[|]|]]; simpl; eauto 10.
Qed.

Lemma stream_append_after_seal_witness :
  let e := {| Stream.record := snd (RecordBuilder.complete complete_by_hand);
              Stream.f := 0%nat |} in
  sealed (Stream.record e)
  /\ Stream.append "more" (e, world_with_file false)
     = (inl (Exception_ "already complete"), (e, world_with_file false)).
Proof.
  split.
  - reflexivity.
  - apply (stream_append_after_seal
             {| Stream.record := snd (RecordBuilder.complete complete_by_hand);
                Stream.f := 0%nat |}).
    reflexivity.
Defined.

(** X21. The closure [complete] seals before it renders and writes. So once
    [record.complete()] has gone through, a second call of the closure
    raises [Exception('already complete')] and does nothing, even when the
    first call failed to render or to write. *)
Theorem stream_complete_only_once (e : Stream.env) (w : World) :
  raised (RecordBuilder.complete (Stream.record e)) = None ->
  Stream.complete (snd (Stream.complete (e, w)))
  = (inl (Exception_ "already complete"), snd (Stream.complete (e, w))).
Proof.
  intros Hret.
  destruct (stream_complete_leaves_sealed e w Hret) as (once & w' & -> & Hsealed).
  apply stream_complete_on_sealed. exact Hsealed.
Qed.

Lemma stream_complete_only_once_witness :
  let e := {| Stream.record := opened; Stream.f := 0%nat |} in
  let w := world_with_file true in
  raised (RecordBuilder.complete (Stream.record e)) = None
  /\ Stream.complete (snd (Stream.complete (e, w)))
     = (inl (Exception_ "already complete"), snd (Stream.complete (e, w))).
Proof.
  split.
  - reflexivity.
  - apply (stream_complete_only_once
             {| Stream.record := opened; Stream.f := 0%nat |}
             (world_with_file true)).
    reflexivity.
Defined.

Lemma stream_complete_on_closed_file_witness :
  let o := {| f_name := "records.log"; f_closed := true |} in
  fobjs (world_with_file true) !! Stream.f session_by_hand = Some o
  /\ f_closed o = true
  /\ exists exc,
       fst (Stream.complete (session_by_hand, world_with_file true)) = inl exc
       /\ fs (snd (snd (Stream.complete (session_by_hand, world_with_file true))))
          = fs (world_with_file true).
Proof.
  split; [reflexivity | split; [reflexivity |]].
  apply (stream_complete_on_closed_file session_by_hand (world_with_file true)
           {| f_name := "records.log"; f_closed := true |});
    reflexivity.
Defined.

(** X23. The closure [complete] at work. On a record that has every attribute
    and over a file object that is open, it seals the record, appends
    exactly the record line to the file and returns the key; the file
    objects and the body are as before. *)
Theorem stream_complete_appends_line (e : Stream.env) (w : World)
    (h : MD5.t) (k0 : option Hashkey) (f a : Hashkey) (c : pyfloat) (n : Z)
    (b : string) (o : FileObj) :
  Stream.record e
  = RecordBuilder.Build
      (Some (Metadata.Build k0 (Some f) (Some a) (Some c) (Some n)))
      (Some b) (Some h) (Some false) ->
  fobjs w !! Stream.f e = Some o ->
  f_closed o = false ->
  let line := record_line (MD5.hexdigest h) f a c n b in
  let r := Stream.complete (e, w) in
  fst r = inr (MD5.hexdigest h)
  /\ fs (snd (snd r))
     = <[f_name o := default EmptyString (fs w !! f_name o) +:+ line]> (fs w)
  /\ fobjs (snd (snd r)) = fobjs w
  /\ sealed (Stream.record (fst (snd r)))
  /\ RecordBuilder.body (Stream.record (fst (snd r))) = Some b.
Proof.
  intros Hrec Hf Hopen. destruct e as [r fi].
  cbn [Stream.record Stream.f] in Hrec, Hf. subst r. cbv zeta.
  unfold Stream.complete, Stream.on_record, Stream.on_world, bind.
  cbn [Stream.record Stream.f]. rewrite complete_outcome.
  unfold Metadata.set_key.
  cbn [RecordBuilder.__complete RecordBuilder.key_builder RecordBuilder.meta
       RecordBuilder.body Metadata.key Metadata.feature
       Metadata.author Metadata.created_at Metadata.size
       Stream.record Stream.f].
  pose proof (result_format (MD5.hexdigest h) f a c n b (Some h)) as Hres.
  cbv zeta in Hres. rewrite Hres.
  cbn [Stream.record Stream.f]. unfold file_write. rewrite Hf, Hopen.
  cbn [Stream.record Stream.f].
  unfold meta_key, on_attr, getattr, sealed.
  cbn [RecordBuilder.__complete RecordBuilder.key_builder RecordBuilder.meta
       RecordBuilder.body RecordBuilder.set_meta Metadata.key
       Stream.record Stream.f fst snd fs fobjs].
  repeat split.
Qed.

Lemma stream_complete_appends_line_witness :
  let r := Stream.complete (session_by_hand, world_with_file false) in
  fst r = inr "d41d8cd98f00b204e9800998ecf8427e"
  /\ fs (snd (snd r)) !! "records.log"
     = Some ("first" +:+ newline
             +:+ "key:d41d8cd98f00b204e9800998ecf8427e;feature:featA;"
             +:+ "author:authX;create_at:1683072000.25;size:5;body:hello"
             +:+ newline).
Proof.
  destruct (stream_complete_appends_line session_by_hand (world_with_file false)
              MD5.new None "featA" "authX" stamp 5 "hello"
              {| f_name := "records.log"; f_closed := false |}
              eq_refl eq_refl eq_refl) as (Hkey & Hfs & _).
  split.
  - rewrite Hkey. vm_compute. reflexivity.
  - rewrite Hfs. rewrite lookup_insert_eq. vm_compute. reflexivity.
Defined.
